(** * Loan Approval Predictor (app.py): a shallow embedding of one Streamlit
    script run, the cached model loader and the prediction block, with the
    properties of its prediction contract. *)

From Stdlib Require Import QArith ZArith String List Bool Lqa Lia.
Import ListNotations.
Open Scope string_scope.

(** ** Values and the single-row input table *)

(** A cell of the pandas row built at lines 163-175: the select boxes give
    Python strings, ints (Loan_Amount_Term) and floats (Credit_History); the
    number inputs, all created with int arguments, give ints.  Floats are
    modelled as rationals: the only operations on them here are exact
    comparisons with 0.5. *)
Inductive Value : Type :=
| VStr (s : string)
| VInt (z : Z)
| VFloat (q : Q).

(** [pd.DataFrame([{...}])]: one row, as the ordered (key, value) pairs of the
    dict literal. *)
Definition Row : Type := list (string * Value).

(** The Python variables read from the widgets before the button guard. *)
Record Raw : Type := mkRaw {
  gender : string;
  married : string;
  dependents : string;
  education : string;
  self_employed : string;
  applicant_income : Z;
  coapplicant_income : Z;
  loan_amount : Z;
  loan_amount_term : Z;
  credit_history : Q;
  property_area : string
}.

(** Lines 163-175. *)
Definition input_df (r : Raw) : Row :=
  [ ("Gender", VStr (gender r));
    ("Married", VStr (married r));
    ("Dependents", VStr (dependents r));
    ("Education", VStr (education r));
    ("Self_Employed", VStr (self_employed r));
    ("ApplicantIncome", VInt (applicant_income r));
    ("CoapplicantIncome", VInt (coapplicant_income r));
    ("LoanAmount", VInt (loan_amount r));
    ("Loan_Amount_Term", VInt (loan_amount_term r));
    ("Credit_History", VFloat (credit_history r));
    ("Property_Area", VStr (property_area r)) ].

(** ** The widgets (lines 86-149) *)

(** [st.selectbox(label, options)] returns one of its options; the user's
    choice is the index of the selected option (Streamlit's default index is
    0, the first option). *)
Definition selectbox {A : Type} (o : A) (os : list A) (choice : nat) : A :=
  nth choice (o :: os) o.

(** [st.number_input(label, min_value=...)] never returns a value below
    [min_value]: a smaller typed value is raised to the minimum. *)
Definition number_input (min_value typed : Z) : Z :=
  Z.max min_value typed.

Inductive Page : Type := Prediction | Documentation | About.

(** One interaction with the page: the navigation choice, what the user
    selected or typed in each widget, and whether the button was pressed. *)
Record Interaction : Type := mkInteraction {
  page : Page;
  gender_choice : nat;
  education_choice : nat;
  married_choice : nat;
  self_employed_choice : nat;
  dependents_choice : nat;
  property_area_choice : nat;
  applicant_income_typed : Z;
  coapplicant_income_typed : Z;
  loan_amount_typed : Z;
  loan_amount_term_choice : nat;
  credit_history_choice : nat;
  predict_btn : bool
}.

(** The values of the widget variables on one run (lines 92-149). *)
Definition widgets (i : Interaction) : Raw :=
  {| gender := selectbox "Male" ["Female"] (gender_choice i);
     education := selectbox "Graduate" ["Not Graduate"] (education_choice i);
     married := selectbox "Yes" ["No"] (married_choice i);
     self_employed := selectbox "Yes" ["No"] (self_employed_choice i);
     dependents := selectbox "0" ["1"; "2"; "3+"] (dependents_choice i);
     property_area :=
       selectbox "Urban" ["Semiurban"; "Rural"] (property_area_choice i);
     applicant_income := number_input 0 (applicant_income_typed i);
     coapplicant_income := number_input 0 (coapplicant_income_typed i);
     loan_amount := number_input 0 (loan_amount_typed i);
     loan_amount_term :=
       selectbox 360%Z [180; 480; 300; 240; 120; 84]%Z
         (loan_amount_term_choice i);
     credit_history := selectbox 1%Q [0%Q] (credit_history_choice i) |}.

(** ** Decision and recommendations (lines 180 and 226-232) *)

(** Python's [a < b] on floats. *)
Definition Qltb (a b : Q) : bool := negb (Qle_bool b a).

(** Line 180: [decision = "Approved" if prob >= 0.5 else "Not Approved"]. *)
Definition decision (prob : Q) : string :=
  if Qle_bool (1 # 2) prob then "Approved" else "Not Approved".

(** The guard of line 226. *)
Definition show_recommendations (decision : string) (prob : Q) : bool :=
  String.eqb decision "Not Approved" && Qltb prob (1 # 2).

Definition recommendation_header : string :=
  "**Recommandations pour améliorer l'approbation :**".

(** The bullets of the warning, in order. *)
Definition recommendation_lines : list string :=
  [ "Améliorer l'historique de crédit";
    "Augmenter le revenu du demandeur/co-demandeur";
    "Réduire le montant du prêt demandé" ].

(** The recommendations the script shows for a (decision, probability)
    pair: the warning's bullets when the guard of line 226 holds. *)
Definition recommend (decision : string) (prob : Q) : list string :=
  if show_recommendations decision prob then recommendation_lines else [].

(** ** Exceptions *)

(** A Python exception: its class name and [str(e)]. *)
Record Exn : Type := mkExn { exn_type : string; exn_text : string }.

Definition str (e : Exn) : string := exn_text e.

Fixpoint uint_to_string (d : Decimal.uint) : string :=
  match d with
  | Decimal.Nil => ""
  | Decimal.D0 d => "0" ++ uint_to_string d
  | Decimal.D1 d => "1" ++ uint_to_string d
  | Decimal.D2 d => "2" ++ uint_to_string d
  | Decimal.D3 d => "3" ++ uint_to_string d
  | Decimal.D4 d => "4" ++ uint_to_string d
  | Decimal.D5 d => "5" ++ uint_to_string d
  | Decimal.D6 d => "6" ++ uint_to_string d
  | Decimal.D7 d => "7" ++ uint_to_string d
  | Decimal.D8 d => "8" ++ uint_to_string d
  | Decimal.D9 d => "9" ++ uint_to_string d
  end.

Definition nat_to_string (n : nat) : string := uint_to_string (Nat.to_uint n).

(** numpy's error for [a[i]] on an axis of length [size]. *)
Definition index_error (i size : nat) : Exn :=
  mkExn "IndexError"
    ("index " ++ nat_to_string i ++ " is out of bounds for axis 0 with size "
       ++ nat_to_string size).

(** [a[i]] on a numpy array axis. *)
Definition np_index {A : Type} (a : list A) (i : nat) : A + Exn :=
  match nth_error a i with
  | Some x => inl x
  | None => inr (index_error i (length a))
  end.

(** ** What a run shows and does

    The trace records the effects the prediction contract is about: reads of
    the artifact, error notices, calls of [predict_proba], and the elements
    of the prediction card.  Static layout (titles, widget labels, the
    documentation pages) is not recorded. *)

Inductive MetricValue : Type :=
| Percent1 (q : Q)   (** [f"{prob:.1%}"] *)
| Text (s : string).

Inductive Event : Type :=
| ReadArtifact (path : string)
| StError (msg : string)
| PredictProba (row : Row)
| Markdown (html : string)
| Gauge (value : Q)
| Metric (label : string) (v : MetricValue)
| Warning (header : string) (bullets : list string).

(** The elements of a PredictionResult shown to the user. *)
Definition is_result_event (ev : Event) : bool :=
  match ev with
  | Markdown _ | Gauge _ | Metric _ _ | Warning _ _ => true
  | ReadArtifact _ | StError _ | PredictProba _ => false
  end.

Definition is_predict_call (ev : Event) : bool :=
  match ev with PredictProba _ => true | _ => false end.

Definition is_artifact_read (ev : Event) : bool :=
  match ev with ReadArtifact _ => true | _ => false end.

Definition artifact_path : string := "loan_pipeline.joblib".

Definition not_found_msg : string :=
  "❌ Modèle non trouvé. Veuillez vérifier que 'loan_pipeline.joblib' existe.".

Definition prediction_error_prefix : string := "Erreur lors de la prédiction : ".

(** A double quote character, for the HTML attributes below. *)
Definition dq : string := String (Ascii.ascii_of_nat 34) EmptyString.

Definition html_class (tag cls body : string) : string :=
  "<" ++ tag ++ " class=" ++ dq ++ cls ++ dq ++ ">" ++ body.

Definition card_open : string := html_class "div" "prediction-card" "".

Definition approved_banner : string :=
  html_class "h2" "approved" "✅ Prêt Approuvé</h2>".

Definition rejected_banner : string :=
  html_class "h2" "rejected" "❌ Prêt Non Approuvé</h2>".

Definition card_close : string := "</div>".

(** ** The script with its model *)

Section Script.

(** The pipeline object stored in the artifact, and its [predict_proba]:
    a matrix of class probabilities, one row per input row, or an
    exception (schema mismatch, unseen category, ...). *)
Variable Model : Type.
Variable predict_proba : Model -> Row -> list (list Q) + Exn.

(** What [joblib.load("loan_pipeline.joblib")] finds on disk. *)
Inductive ArtifactFile : Type :=
| Missing                 (** raises FileNotFoundError *)
| Unreadable (e : Exn)   (** raises any other exception *)
| Present (m : Model).

Variable artifact : ArtifactFile.

(** [@st.cache_resource] on [load_model]: empty until the first call that
    returns, then the returned value together with the elements the call
    emitted, which Streamlit replays on every later call.  A call that
    raises is not cached. *)
Definition Cache : Type := option (option Model * list Event).

(** Lines 53-59, through the cache: the handle, the events of the call, and
    the new cache; or the uncaught exception with the events so far. *)
Definition load_model (c : Cache)
  : (option Model * list Event * Cache) + (list Event * Exn) :=
  match c with
  | Some (v, msgs) => inl (v, msgs, c)
  | None =>
      match artifact with
      | Missing =>
          let msgs := [StError not_found_msg] in
          inl (None, ReadArtifact artifact_path :: msgs, Some (None, msgs))
      | Unreadable e => inr ([ReadArtifact artifact_path], e)
      | Present m => inl (Some m, [ReadArtifact artifact_path], Some (Some m, []))
      end
  end.

(** Line 179: [model.predict_proba(input_df)[0][1]]. *)
Definition score (m : Model) (row : Row) : Q + Exn :=
  match predict_proba m row with
  | inr e => inr e
  | inl rows =>
      match np_index rows 0 with
      | inr e => inr e
      | inl r => np_index r 1
      end
  end.

(** Lines 180-232: the prediction card for probability [prob]. *)
Definition render (prob : Q) : list Event :=
  let d := decision prob in
  [ Markdown card_open;
    Gauge (prob * 100);
    Markdown (if String.eqb d "Approved" then approved_banner
              else rejected_banner);
    Metric "Probabilité d'approbation" (Percent1 prob);
    Metric "Seuil de décision" (Text "50%");
    Markdown card_close ]
  ++ (if show_recommendations d prob
      then [Warning recommendation_header recommendation_lines] else []).

(** Lines 163-235: the body of the button guard. *)
Definition predict_block (m : Model) (raw : Raw) : list Event :=
  let row := input_df raw in
  PredictProba row ::
  match score m row with
  | inr e => [StError (prediction_error_prefix ++ str e)]
  | inl prob => render prob
  end.

(** The outcome of one script run. *)
Record Step : Type := mkStep {
  next_cache : Cache;
  trace : list Event;
  uncaught : option Exn
}.

(** One rerun of the script for an interaction. *)
Definition run (c : Cache) (i : Interaction) : Step :=
  match load_model c with
  | inr (evs, e) => mkStep c evs (Some e)
  | inl (model, evs, c') =>
      match page i with
      | Prediction =>
          if predict_btn i then
            match model with
            | Some m => mkStep c' (evs ++ predict_block m (widgets i)) None
            | None => mkStep c' evs None
            end
          else mkStep c' evs None
      | Documentation | About => mkStep c' evs None
      end
  end.

(** A session: successive reruns sharing the process-wide cache. *)
Fixpoint runs (c : Cache) (is : list Interaction) : list Step :=
  match is with
  | [] => []
  | i :: is' => let s := run c i in s :: runs (next_cache s) is'
  end.

(** The cache after a session. *)
Fixpoint final_cache (c : Cache) (is : list Interaction) : Cache :=
  match is with
  | [] => c
  | i :: is' => final_cache (next_cache (run c i)) is'
  end.

End Script.

Arguments Missing {Model}.
Arguments Unreadable {Model} e.
Arguments Present {Model} m.
Arguments load_model {Model} artifact c.
Arguments score {Model} predict_proba m row.
Arguments predict_block {Model} predict_proba m raw.
Arguments mkStep {Model} next_cache trace uncaught.
Arguments next_cache {Model} s.
Arguments trace {Model} s.
Arguments uncaught {Model} s.
Arguments run {Model} predict_proba artifact c i.
Arguments runs {Model} predict_proba artifact c is.
Arguments final_cache {Model} predict_proba artifact c is.

(** The handle [model] the script holds after line 63. *)
Definition handle {Model : Type} (artifact : ArtifactFile Model) (c : Cache Model)
  : option Model :=
  match load_model artifact c with
  | inl (v, _, _) => v
  | inr _ => None
  end.

(** ** The data model of the spec (its section 3) *)

Definition field_names : list string :=
  [ "Gender"; "Married"; "Dependents"; "Education"; "Self_Employed";
    "ApplicantIncome"; "CoapplicantIncome"; "LoanAmount";
    "Loan_Amount_Term"; "Credit_History"; "Property_Area" ].

Definition str_in (s : string) (dom : list string) : bool :=
  existsb (String.eqb s) dom.

(** Each field's declared domain: its enumerated set or [>= 0]. *)
Definition field_in_domain (kv : string * Value) : bool :=
  let '(k, v) := kv in
  match v with
  | VStr s =>
      (String.eqb k "Gender" && str_in s ["Male"; "Female"])
      || (String.eqb k "Married" && str_in s ["Yes"; "No"])
      || (String.eqb k "Dependents" && str_in s ["0"; "1"; "2"; "3+"])
      || (String.eqb k "Education" && str_in s ["Graduate"; "Not Graduate"])
      || (String.eqb k "Self_Employed" && str_in s ["Yes"; "No"])
      || (String.eqb k "Property_Area"
          && str_in s ["Urban"; "Semiurban"; "Rural"])
  | VInt z =>
      ((String.eqb k "ApplicantIncome" || String.eqb k "CoapplicantIncome"
        || String.eqb k "LoanAmount") && (0 <=? z)%Z)
      || (String.eqb k "Loan_Amount_Term"
          && existsb (Z.eqb z) [360; 180; 480; 300; 240; 120; 84]%Z)
  | VFloat q =>
      String.eqb k "Credit_History" && (Qeq_bool q 1 || Qeq_bool q 0)
  end.

Definition record_in_domain (row : Row) : bool :=
  forallb field_in_domain row.

(** ** Sanity checks on concrete inputs *)

Definition default_interaction : Interaction :=
  mkInteraction Prediction 0 0 0 0 0 0 5000 0 100 0 0 true.

Definition fixture (p : Q) : unit -> Row -> list (list Q) + Exn :=
  fun _ _ => inl [[1 - p; p]].

Example scenario1 :
  trace (run (fixture (82 # 100)) (Present tt) None default_interaction)
  = ReadArtifact artifact_path
    :: PredictProba (input_df (widgets default_interaction))
    :: render (82 # 100).
Proof. reflexivity. Qed.

Example scenario1_domain :
  record_in_domain (input_df (widgets default_interaction)) = true.
Proof. reflexivity. Qed.

Example decision_half : decision (1 # 2) = "Approved".
Proof. reflexivity. Qed.

(** ** Decision threshold *)

Lemma decision_cases (p : Q) :
  (Qle_bool (1 # 2) p = true /\ decision p = "Approved")
  \/ (Qle_bool (1 # 2) p = false /\ decision p = "Not Approved").
Proof. unfold decision; destruct (Qle_bool (1 # 2) p); auto. Qed.

(** C1: the decision at line 180 is "Approved" exactly when [p >= 0.5] and
    "Not Approved" otherwise; it is exact at the listed points and monotonic. *)
Theorem decision_threshold_exact :
  (forall p, decision p = "Approved" <-> 1 # 2 <= p)
  /\ (forall p, decision p = "Not Approved" <-> p < 1 # 2)
  /\ decision 0.5 = "Approved"
  /\ decision 0.499999 = "Not Approved"
  /\ decision 1.0 = "Approved"
  /\ decision 0.0 = "Not Approved"
  /\ (forall p1 p2, p1 <= p2 -> decision p1 = "Approved" ->
        decision p2 = "Approved").
Proof.
  assert (HA : forall p, decision p = "Approved" <-> 1 # 2 <= p).
  { intro p; rewrite <- Qle_bool_iff.
    destruct (decision_cases p) as [[Hb Hd] | [Hb Hd]]; rewrite Hd, Hb;
      split; congruence. }
  split; [exact HA |].
  split.
  { intro p; destruct (decision_cases p) as [[Hb Hd] | [Hb Hd]]; rewrite Hd.
    - apply Qle_bool_iff in Hb; split; [discriminate | intro Hlt].
      exfalso; exact (Qlt_not_le _ _ Hlt Hb).
    - split; [intros _ | reflexivity].
      apply Qnot_le_lt; intro Hle; apply Qle_bool_iff in Hle; congruence. }
  split; [reflexivity |]. split; [reflexivity |].
  split; [reflexivity |]. split; [reflexivity |].
  intros p1 p2 Hle H1; apply HA; apply HA in H1; exact (Qle_trans _ _ _ H1 Hle).
Qed.

(** ** Recommendations *)

(** C3: for the (decision, probability) pair the script computes, the
    recommendations are non-empty exactly when the decision is
    "Not Approved"; they are then the three bullets in their fixed order,
    and empty when "Approved".  The warning element is in the card exactly
    in the "Not Approved" case. *)
Theorem recommend_iff_not_approved :
  forall p,
    (recommend (decision p) p <> [] <-> decision p = "Not Approved")
    /\ (decision p = "Not Approved" -> recommend (decision p) p =
          [ "Améliorer l'historique de crédit";
            "Augmenter le revenu du demandeur/co-demandeur";
            "Réduire le montant du prêt demandé" ])
    /\ (decision p = "Approved" -> recommend (decision p) p = [])
    /\ (In (Warning recommendation_header recommendation_lines) (render p)
        <-> decision p = "Not Approved").
Proof.
  intro p; unfold recommend, render.
  destruct (decision_cases p) as [[Hb Hd] | [Hb Hd]]; rewrite Hd;
    unfold show_recommendations, Qltb; rewrite Hb; simpl.
  all: repeat split; intros H; try congruence.
  all: first
    [ exfalso; repeat (destruct H as [H | H]; [discriminate H |]); exact H
    | discriminate
    | right; right; right; right; right; right; left; reflexivity ].
Qed.

(** ** The cache across reruns *)

Section Session.

Context {M : Type}.
Variable pp : M -> Row -> list (list Q) + Exn.
Variable art : ArtifactFile M.

(** The caches a session can reach from the empty cache. *)
Definition reachable (c : Cache M) : Prop :=
  c = None
  \/ (art = Missing /\ c = Some (None, [StError not_found_msg]))
  \/ (exists m, art = Present m /\ c = Some (Some m, [])).

Definition pressed (i : Interaction) : bool :=
  match page i with Prediction => predict_btn i | _ => false end.

Lemma run_unfold (c : Cache M) (i : Interaction) :
  run pp art c i =
  match load_model art c with
  | inr (evs, e) => mkStep c evs (Some e)
  | inl (v, evs, c') =>
      mkStep c'
        (evs ++ match v with
                | Some m => if pressed i then predict_block pp m (widgets i) else []
                | None => []
                end) None
  end.
Proof.
  unfold run, pressed.
  destruct (load_model art c) as [[[v evs] c'] | [evs e]]; [| reflexivity].
  destruct (page i), (predict_btn i), v; rewrite ?app_nil_r; reflexivity.
Qed.

Lemma run_filled (v : option M) (msgs : list Event) (i : Interaction) :
  next_cache (run pp art (Some (v, msgs)) i) = Some (v, msgs).
Proof. rewrite run_unfold; reflexivity. Qed.

Lemma final_cache_filled (v : option M) (msgs : list Event) is :
  final_cache pp art (Some (v, msgs)) is = Some (v, msgs).
Proof.
  induction is as [| i is IH]; simpl; [reflexivity |].
  rewrite run_filled; exact IH.
Qed.

Lemma run_reachable (c : Cache M) (i : Interaction) :
  reachable c -> reachable (next_cache (run pp art c i)).
Proof.
  intros Hc; rewrite run_unfold.
  destruct Hc as [-> | [[Ha ->] | [m [Ha ->]]]].
  - unfold reachable; simpl; destruct art as [| e | m] eqn:Ha; simpl; eauto.
  - right; left; auto.
  - right; right; eauto.
Qed.

Lemma final_cache_reachable is (c : Cache M) :
  reachable c -> reachable (final_cache pp art c is).
Proof.
  revert c; induction is as [| i is IH]; intros c Hc; simpl; [exact Hc |].
  apply IH, run_reachable, Hc.
Qed.

Lemma session_reachable is : reachable (final_cache pp art None is).
Proof. apply final_cache_reachable; left; reflexivity. Qed.

(** The events of one run from a reachable cache: the loader's, then the
    prediction block when the button is pressed with a handle. *)
Lemma run_trace_reachable (c : Cache M) (i : Interaction) :
  reachable c ->
  (handle art c = None /\ uncaught (run pp art c i) = None
     /\ trace (run pp art c i) =
        ((if c then [] else [ReadArtifact artifact_path]) ++ [StError not_found_msg])%list)
  \/ (exists e, art = Unreadable e /\ c = None
        /\ trace (run pp art c i) = [ReadArtifact artifact_path])
  \/ (exists m, handle art c = Some m /\ uncaught (run pp art c i) = None
        /\ next_cache (run pp art c i) = Some (Some m, [])
        /\ trace (run pp art c i) =
           ((if c then [] else [ReadArtifact artifact_path])
            ++ (if pressed i then predict_block pp m (widgets i) else []))%list).
Proof.
  intros Hc; unfold handle; rewrite run_unfold.
  destruct Hc as [-> | [[Ha ->] | [m [Ha ->]]]].
  - simpl; destruct art as [| e | m] eqn:Ha; simpl.
    + left; auto.
    + right; left; eauto.
    + right; right; exists m; auto.
  - left; simpl; auto.
  - right; right; exists m; simpl; auto.
Qed.

End Session.

Lemma predict_block_calls {M : Type} (pp : M -> Row -> list (list Q) + Exn) m raw row :
  In (PredictProba row) (predict_block pp m raw) -> row = input_df raw.
Proof.
  unfold predict_block; intros [H | H]; [congruence |].
  destruct (score pp m (input_df raw)) as [p | e].
  - unfold render in H; apply in_app_or in H; destruct H as [H | H].
    + simpl in H; repeat (destruct H as [H | H]; [discriminate H |]); contradiction.
    + destruct (show_recommendations _ _); simpl in H;
        repeat (destruct H as [H | H]; [discriminate H |]); contradiction.
  - simpl in H; destruct H as [H | []]; discriminate.
Qed.

(** ** Missing artifact *)

Lemma runs_after_missing {M : Type} (pp : M -> Row -> list (list Q) + Exn) is :
  runs pp Missing (Some (None, [StError not_found_msg])) is
  = map (fun _ => mkStep (Some (None, [StError not_found_msg]))
                    [StError not_found_msg] None) is.
Proof.
  induction is as [| i is IH]; simpl; [reflexivity |].
  rewrite run_unfold; simpl; rewrite IH; reflexivity.
Qed.

(** C4: with no artifact at "loan_pipeline.joblib", every run of a session
    completes (no uncaught exception), shows the not-found notice, calls
    [predict_proba] never, and reads the path only on the first run: the
    failed load is cached. *)
Theorem missing_artifact_cached_failure {M : Type}
    (pp : M -> Row -> list (list Q) + Exn) :
  forall is k s,
    nth_error (runs pp Missing None is) k = Some s ->
    uncaught s = None
    /\ In (StError not_found_msg) (trace s)
    /\ forallb (fun ev => negb (is_predict_call ev)) (trace s) = true
    /\ (existsb is_artifact_read (trace s) = true <-> k = 0%nat)
    /\ handle Missing (next_cache s) = None.
Proof.
  intros [| i is] k s Hs; [destruct k; discriminate |].
  simpl in Hs; rewrite run_unfold in Hs; simpl in Hs.
  destruct k as [| k].
  - injection Hs as <-; simpl; intuition.
  - simpl in Hs; rewrite runs_after_missing, nth_error_map in Hs.
    destruct (nth_error is k); simpl in Hs; [| discriminate].
    injection Hs as <-; simpl; intuition discriminate.
Qed.

Lemma missing_artifact_cached_failure_witness :
  nth_error (runs (fixture (1 # 2)) Missing None
               [default_interaction; default_interaction]) 1
  = Some (mkStep (Some (None, [StError not_found_msg]))
            [StError not_found_msg] None)
  /\ In (StError not_found_msg) [StError not_found_msg].
Proof.
  split; [reflexivity |].
  exact (proj1 (proj2 (missing_artifact_cached_failure (fixture (1 # 2))
                 [default_interaction; default_interaction] 1
                 (mkStep (Some (None, [StError not_found_msg]))
                    [StError not_found_msg] None) eq_refl))).
Defined.

(** C10: a run whose handle is None (the load failed) never calls
    [predict_proba], whatever the interaction, the button included. *)
Theorem no_scoring_without_model {M : Type}
    (pp : M -> Row -> list (list Q) + Exn) (art : ArtifactFile M) is i :
  handle art (final_cache pp art None is) = None ->
  forallb (fun ev => negb (is_predict_call ev))
    (trace (run pp art (final_cache pp art None is) i)) = true.
Proof.
  intros Hh.
  destruct (run_trace_reachable pp art _ i (session_reachable pp art is))
    as [[_ [_ ->]] | [[e [_ [_ ->]]] | [m [Hm _]]]].
  - destruct (final_cache pp art None is); reflexivity.
  - reflexivity.
  - congruence.
Qed.

Lemma no_scoring_without_model_witness :
  let i := default_interaction in
  handle Missing (final_cache (fixture (1 # 2)) Missing None [i]) = None
  /\ pressed i = true
  /\ forallb (fun ev => negb (is_predict_call ev))
       (trace (run (fixture (1 # 2)) Missing
                 (final_cache (fixture (1 # 2)) Missing None [i]) i)) = true.
Proof.
  split; [reflexivity |]. split; [reflexivity |].
  apply no_scoring_without_model; reflexivity.
Defined.

(** ** Scoring failures *)

Lemma predict_block_score_error {M : Type} (pp : M -> Row -> list (list Q) + Exn)
    m raw e :
  score pp m (input_df raw) = inr e ->
  predict_block pp m raw
  = [PredictProba (input_df raw); StError (prediction_error_prefix ++ str e)].
Proof. intros He; unfold predict_block; rewrite He; reflexivity. Qed.

(** C6: when [predict_proba] (or the indexing of its result) fails for the
    submitted record, the run shows no element of a PredictionResult (no
    gauge, decision, metric or recommendation), only the error; it completes,
    and the cache holds the same handle, which every later run gets back
    without a new read. *)
Theorem prediction_fails_atomically {M : Type}
    (pp : M -> Row -> list (list Q) + Exn) (art : ArtifactFile M) is i m e :
  pressed i = true ->
  handle art (final_cache pp art None is) = Some m ->
  score pp m (input_df (widgets i)) = inr e ->
  forallb (fun ev => negb (is_result_event ev))
    (trace (run pp art (final_cache pp art None is) i)) = true
  /\ In (StError (prediction_error_prefix ++ str e))
       (trace (run pp art (final_cache pp art None is) i))
  /\ uncaught (run pp art (final_cache pp art None is) i) = None
  /\ next_cache (run pp art (final_cache pp art None is) i) = Some (Some m, [])
  /\ (final_cache pp art None is <> None ->
      next_cache (run pp art (final_cache pp art None is) i)
      = final_cache pp art None is)
  /\ load_model art (next_cache (run pp art (final_cache pp art None is) i))
     = inl (Some m, [], Some (Some m, [])).
Proof.
  intros Hp Hh He.
  destruct (run_trace_reachable pp art _ i (session_reachable pp art is))
    as [[Hn _] | [[e' [Ha [Hc _]]] | [m' [Hm [Hu [Hn Ht]]]]]].
  - congruence.
  - unfold handle in Hh; rewrite Hc, Ha in Hh; discriminate.
  - assert (m' = m) as -> by congruence.
    rewrite Hp, (predict_block_score_error pp m (widgets i) e He) in Ht.
    rewrite Ht, Hu, Hn.
    destruct (session_reachable pp art is) as [Hc | [[Ha Hc] | [m2 [Ha Hc]]]].
    + rewrite Hc; cbv beta iota.
      refine (conj eq_refl (conj _ (conj eq_refl (conj eq_refl (conj _ eq_refl))))).
      * apply in_or_app; right; right; left; reflexivity.
      * intro H; contradiction.
    + unfold handle in Hh; rewrite Hc in Hh; discriminate.
    + unfold handle in Hh; rewrite Hc in Hh; cbv beta iota in Hh.
      injection Hh as ->; rewrite Hc; cbv beta iota.
      refine (conj eq_refl (conj _ (conj eq_refl (conj eq_refl (conj _ eq_refl))))).
      * apply in_or_app; right; right; left; reflexivity.
      * intros _; reflexivity.
Qed.

Definition failing_pipeline (e : Exn) : unit -> Row -> list (list Q) + Exn :=
  fun _ _ => inr e.

Definition unseen_category : Exn :=
  mkExn "ValueError"
    "Found unknown categories ['Other'] in column 0 during transform".

Lemma prediction_fails_atomically_witness :
  pressed default_interaction = true
  /\ forallb (fun ev => negb (is_result_event ev))
       (trace (run (failing_pipeline unseen_category) (Present tt)
                 (final_cache (failing_pipeline unseen_category) (Present tt)
                    None []) default_interaction)) = true.
Proof.
  split; [reflexivity |].
  exact (proj1 (prediction_fails_atomically (failing_pipeline unseen_category)
           (Present tt) [] default_interaction tt unseen_category
           eq_refl eq_refl eq_refl)).
Defined.

(** C5, as stated, fails: the error notice of line 235 is
    "Erreur lors de la prédiction : " followed by [str(e)], so the text of the
    pipeline's exception reaches the user. *)
Lemma scoring_error_exposes_exception_text :
  predict_block (failing_pipeline unseen_category) tt
    (widgets default_interaction)
  = [PredictProba (input_df (widgets default_interaction));
     StError ("Erreur lors de la prédiction : "
              ++ "Found unknown categories ['Other'] in column 0 during transform")]
  /\ exn_text unseen_category
     = "Found unknown categories ['Other'] in column 0 during transform".
Proof. split; reflexivity. Qed.

(** C5 (amended): when scoring fails with exception [e], the one thing the
    prediction block shows is the error "Erreur lors de la prédiction : "
    followed by the exception's own text [str(e)]; no prediction element and
    no stack trace is shown. *)
Theorem scoring_error_message {M : Type} (pp : M -> Row -> list (list Q) + Exn)
    m raw e :
  score pp m (input_df raw) = inr e ->
  predict_block pp m raw
  = [PredictProba (input_df raw);
     StError ("Erreur lors de la prédiction : " ++ exn_text e)].
Proof. apply predict_block_score_error. Qed.

Lemma scoring_error_message_witness :
  score (failing_pipeline unseen_category) tt
    (input_df (widgets default_interaction)) = inr unseen_category
  /\ predict_block (failing_pipeline unseen_category) tt
       (widgets default_interaction)
     = [PredictProba (input_df (widgets default_interaction));
        StError ("Erreur lors de la prédiction : " ++ exn_text unseen_category)].
Proof.
  split; [reflexivity |].
  apply scoring_error_message; reflexivity.
Defined.

(** ** Determinism *)

(** C9: once the cache holds a loaded handle, a later run of the same
    interaction, after any other interactions in between, is the same run:
    same record, same probability, same decision, same elements. *)
Theorem prediction_deterministic {M : Type}
    (pp : M -> Row -> list (list Q) + Exn) (art : ArtifactFile M) is is' i m :
  final_cache pp art None is = Some (Some m, []) ->
  run pp art (final_cache pp art (final_cache pp art None is) is') i
  = run pp art (final_cache pp art None is) i
  /\ trace (run pp art (final_cache pp art None is) i)
     = (if pressed i then predict_block pp m (widgets i) else []).
Proof.
  intros Hc; rewrite Hc, final_cache_filled; split; [reflexivity |].
  rewrite run_unfold; reflexivity.
Qed.

Lemma prediction_deterministic_witness :
  final_cache (fixture (82 # 100)) (Present tt) None [default_interaction]
  = Some (Some tt, [])
  /\ run (fixture (82 # 100)) (Present tt)
       (final_cache (fixture (82 # 100)) (Present tt)
          (final_cache (fixture (82 # 100)) (Present tt) None
             [default_interaction]) [default_interaction; default_interaction])
       default_interaction
     = run (fixture (82 # 100)) (Present tt)
         (final_cache (fixture (82 # 100)) (Present tt) None
            [default_interaction]) default_interaction.
Proof.
  split; [reflexivity |].
  apply (prediction_deterministic (fixture (82 # 100)) (Present tt)
           [default_interaction] _ default_interaction tt); reflexivity.
Defined.

(** ** The submitted record *)

Lemma selectbox_in {A : Type} (o : A) os n : In (selectbox o os n) (o :: os).
Proof.
  unfold selectbox; destruct (nth_in_or_default n (o :: os) o) as [H | H];
    [exact H | rewrite H; left; reflexivity].
Qed.

Lemma number_input_nonneg z : (0 <=? number_input 0 z)%Z = true.
Proof. apply Z.leb_le, Z.le_max_l. Qed.

(** The widgets only produce in-domain values. *)
Lemma widgets_in_domain i : record_in_domain (input_df (widgets i)) = true.
Proof.
  unfold record_in_domain; apply forallb_forall; intros kv Hkv.
  unfold input_df, widgets in Hkv; cbn [gender married dependents education
    self_employed applicant_income coapplicant_income loan_amount
    loan_amount_term credit_history property_area] in Hkv.
  repeat (destruct Hkv as [<- | Hkv];
    [ unfold field_in_domain;
      first
        [ rewrite number_input_nonneg; reflexivity
        | match goal with
          | |- context [selectbox ?o ?os ?n] =>
              destruct (selectbox_in o os n) as [Hs | Hs];
              [| repeat (destruct Hs as [Hs | Hs]; [rewrite <- Hs; reflexivity |])];
              [rewrite <- Hs; reflexivity | contradiction]
          end ]
    |]).
  contradiction.
Qed.

Lemma field_names_nodup : NoDup field_names.
Proof.
  unfold field_names.
  repeat (constructor; [simpl; intuition discriminate |]); constructor.
Qed.

(** C8: every record a run hands to [predict_proba] is the eleven-field row
    of the widgets: exactly the fields of the data model, each once, each
    value in that field's declared domain. *)
Theorem submitted_records_fully_populated {M : Type}
    (pp : M -> Row -> list (list Q) + Exn) (art : ArtifactFile M) is i row :
  In (PredictProba row) (trace (run pp art (final_cache pp art None is) i)) ->
  row = input_df (widgets i)
  /\ map fst row = field_names
  /\ NoDup (map fst row)
  /\ record_in_domain row = true.
Proof.
  intros Hin.
  assert (Hrow : row = input_df (widgets i)).
  { destruct (run_trace_reachable pp art _ i (session_reachable pp art is))
      as [[_ [_ Ht]] | [[e [_ [_ Ht]]] | [m [_ [_ [_ Ht]]]]]];
      rewrite Ht in Hin.
    - destruct (final_cache pp art None is); simpl in Hin;
        repeat (destruct Hin as [Hin | Hin]; [discriminate Hin |]); contradiction.
    - destruct Hin as [Hin | []]; discriminate.
    - apply in_app_or in Hin; destruct Hin as [Hin | Hin].
      + destruct (final_cache pp art None is); simpl in Hin;
          [contradiction | destruct Hin as [Hin | []]; discriminate].
      + destruct (pressed i); [| contradiction].
        exact (predict_block_calls pp m _ _ Hin). }
  subst row; split; [reflexivity |]; split; [reflexivity |].
  split; [exact field_names_nodup | apply widgets_in_domain].
Qed.

Lemma submitted_records_fully_populated_witness :
  In (PredictProba (input_df (widgets default_interaction)))
     (trace (run (fixture (82 # 100)) (Present tt)
               (final_cache (fixture (82 # 100)) (Present tt) None [])
               default_interaction))
  /\ record_in_domain (input_df (widgets default_interaction)) = true.
Proof.
  assert (H : In (PredictProba (input_df (widgets default_interaction)))
     (trace (run (fixture (82 # 100)) (Present tt)
               (final_cache (fixture (82 # 100)) (Present tt) None [])
               default_interaction))) by (right; left; reflexivity).
  split; [exact H |].
  exact (proj2 (proj2 (proj2 (submitted_records_fully_populated
           (fixture (82 # 100)) (Present tt) [] default_interaction _ H)))).
Defined.

(** ** No validation in record construction *)

Definition raw_other_gender : Raw :=
  let r := widgets default_interaction in
  mkRaw "Other" (married r) (dependents r) (education r) (self_employed r)
    (applicant_income r) (coapplicant_income r) (loan_amount r)
    (loan_amount_term r) (credit_history r) (property_area r).

Definition raw_negative_income : Raw :=
  let r := widgets default_interaction in
  mkRaw (gender r) (married r) (dependents r) (education r) (self_employed r)
    (-1) (coapplicant_income r) (loan_amount r)
    (loan_amount_term r) (credit_history r) (property_area r).

(** C2, as stated, fails: given gender = "Other", or applicant_income = -1,
    the handler builds the record anyway (it is out of domain), submits it to
    [predict_proba] and renders its result; no validation error is raised. *)
Lemma record_construction_accepts_out_of_domain :
  record_in_domain (input_df raw_other_gender) = false
  /\ predict_block (fixture (4 # 5)) tt raw_other_gender
     = PredictProba (input_df raw_other_gender) :: render (4 # 5)
  /\ record_in_domain (input_df raw_negative_income) = false
  /\ predict_block (fixture (4 # 5)) tt raw_negative_income
     = PredictProba (input_df raw_negative_income) :: render (4 # 5).
Proof. repeat split; reflexivity. Qed.

(** C2 (amended): record construction performs no check of its own: every
    raw input, in domain or not, is put unchanged into the row submitted to
    [predict_proba]; the domains are kept only by the widgets, whose values
    are always in domain. *)
Theorem record_construction_unvalidated {M : Type}
    (pp : M -> Row -> list (list Q) + Exn) (m : M) :
  (forall raw, exists rest,
      predict_block pp m raw = PredictProba (input_df raw) :: rest
      /\ (rest = [StError (prediction_error_prefix ++
                           match score pp m (input_df raw) with
                           | inr e => str e | inl _ => "" end)]
          \/ exists p, score pp m (input_df raw) = inl p /\ rest = render p))
  /\ (forall i, record_in_domain (input_df (widgets i)) = true).
Proof.
  split; [| exact widgets_in_domain].
  intro raw; unfold predict_block.
  destruct (score pp m (input_df raw)) as [p | e]; eexists; split; eauto.
Qed.

(** ** The score *)

Lemma sum_nonneg (l : list Q) :
  Forall (Qle 0) l -> 0 <= fold_right Qplus 0 l.
Proof.
  induction 1 as [| a l Ha _ IH]; simpl; lra.
Qed.

Lemma nonneg_le_sum (l : list Q) x :
  Forall (Qle 0) l -> In x l -> x <= fold_right Qplus 0 l.
Proof.
  induction 1 as [| a l Ha Hl IH]; intros Hx; [contradiction |].
  simpl; destruct Hx as [<- | Hx].
  - pose proof (sum_nonneg l Hl); lra.
  - pose proof (IH Hx); lra.
Qed.

(** C7: when the pipeline returns, for the submitted record, a probability
    vector (non-negative entries summing to 1, the approved class at index 1
    as the code reads it), the score is that entry and lies in [0, 1]. *)
Theorem score_in_unit_interval {M : Type}
    (pp : M -> Row -> list (list Q) + Exn) (m : M) i probs rest :
  pp m (input_df (widgets i)) = inl (probs :: rest) ->
  (2 <= length probs)%nat ->
  Forall (Qle 0) probs ->
  fold_right Qplus 0 probs == 1 ->
  exists p, score pp m (input_df (widgets i)) = inl p
            /\ nth_error probs 1 = Some p
            /\ 0 <= p <= 1.
Proof.
  intros Hpp Hlen Hnn Hsum.
  destruct (nth_error probs 1) as [p |] eqn:Hp.
  - exists p; unfold score, np_index; rewrite Hpp; cbn -[nth_error];
    change (nth_error (probs :: rest) 0) with (Some probs); cbv iota; rewrite Hp.
    split; [reflexivity |]; split; [reflexivity |].
    assert (Hin : In p probs) by (eapply nth_error_In; exact Hp).
    split.
    + rewrite Forall_forall in Hnn; exact (Hnn p Hin).
    + rewrite <- Hsum; exact (nonneg_le_sum _ _ Hnn Hin).
  - apply nth_error_None in Hp; exfalso; apply (Nat.lt_irrefl 1);
      apply (Nat.lt_le_trans _ 2); [auto | apply (Nat.le_trans _ _ _ Hlen Hp)].
Qed.

Lemma score_in_unit_interval_witness :
  fixture (82 # 100) tt (input_df (widgets default_interaction))
  = inl [[1 - (82 # 100); 82 # 100]]
  /\ score (fixture (82 # 100)) tt (input_df (widgets default_interaction))
     = inl (82 # 100).
Proof.
  split; [reflexivity |].
  destruct (score_in_unit_interval (fixture (82 # 100)) tt default_interaction
              [1 - (82 # 100); 82 # 100] [] eq_refl)
    as [p [Hs [Hn _]]].
  - simpl; auto.
  - repeat constructor; unfold Qle; simpl; lia.
  - reflexivity.
  - simpl in Hn; injection Hn as <-; exact Hs.
Defined.

(** ** Further properties of the prediction page *)

Lemma banners_distinct :
  approved_banner <> rejected_banner /\ approved_banner <> card_open
  /\ approved_banner <> card_close /\ rejected_banner <> card_open
  /\ rejected_banner <> card_close.
Proof. repeat split; intro H; apply String.eqb_eq in H; vm_compute in H; discriminate. Qed.

(** [H : In x l] is absurd when [x] differs from every element of [l]. *)
Ltac not_member H :=
  simpl in H;
  repeat (destruct H as [H | H];
          [ first [ discriminate H
                  | injection H as H;
                    first [ congruence
                          | apply String.eqb_eq in H; vm_compute in H;
                            discriminate H ] ] |]);
  contradiction.

(** The card shows the "approved" banner exactly when [prob >= 0.5] and the
    "rejected" banner exactly when [prob < 0.5], next to the fixed "50%"
    threshold metric. *)
Theorem render_banner_matches_threshold (p : Q) :
  (In (Markdown approved_banner) (render p) <-> 1 # 2 <= p)
  /\ (In (Markdown rejected_banner) (render p) <-> p < 1 # 2)
  /\ In (Metric "Seuil de décision" (Text "50%")) (render p).
Proof.
  destruct banners_distinct as [D1 [D2 [D3 [D4 D5]]]].
  assert (Hlt : p < 1 # 2 <-> Qle_bool (1 # 2) p = false).
  { split; intro H.
    - destruct (Qle_bool (1 # 2) p) eqn:E; [| reflexivity].
      apply Qle_bool_iff in E; exfalso; exact (Qlt_not_le _ _ H E).
    - apply Qnot_le_lt; rewrite <- Qle_bool_iff; congruence. }
  rewrite Hlt, <- Qle_bool_iff.
  unfold render, decision.
  destruct (Qle_bool (1 # 2) p) eqn:E; simpl String.eqb; cbv iota;
    unfold show_recommendations, Qltb; rewrite E; simpl negb; simpl app.
  - split; [| split]; [split; [reflexivity | intros _] | split; intro H |].
    + right; right; left; reflexivity.
    + exfalso; not_member H.
    + discriminate.
    + right; right; right; right; left; reflexivity.
  - split; [| split]; [split; intro H | split; [reflexivity | intros _] |].
    + exfalso; not_member H.
    + discriminate.
    + right; right; left; reflexivity.
    + right; right; right; right; left; reflexivity.
Qed.

(** A pipeline that knows a single class returns one column: the [[1]]
    index of line 179 raises numpy's IndexError, which the prediction block
    shows as its error, with no card. *)
Theorem single_class_index_error {M : Type}
    (pp : M -> Row -> list (list Q) + Exn) m raw q rest :
  pp m (input_df raw) = inl ([q] :: rest) ->
  predict_block pp m raw
  = [PredictProba (input_df raw);
     StError "Erreur lors de la prédiction : index 1 is out of bounds for axis 0 with size 1"].
Proof. intros H; unfold predict_block, score; rewrite H; reflexivity. Qed.

Lemma single_class_index_error_witness :
  predict_block (fun (_ : unit) _ => inl [[1]]) tt (widgets default_interaction)
  = [PredictProba (input_df (widgets default_interaction));
     StError "Erreur lors de la prédiction : index 1 is out of bounds for axis 0 with size 1"].
Proof. apply (single_class_index_error _ tt _ 1 []); reflexivity. Defined.

(** An empty probability matrix makes the [[0]] index raise. *)
Theorem empty_matrix_index_error {M : Type}
    (pp : M -> Row -> list (list Q) + Exn) m raw :
  pp m (input_df raw) = inl [] ->
  predict_block pp m raw
  = [PredictProba (input_df raw);
     StError "Erreur lors de la prédiction : index 0 is out of bounds for axis 0 with size 0"].
Proof. intros H; unfold predict_block, score; rewrite H; reflexivity. Qed.

Lemma empty_matrix_index_error_witness :
  predict_block (fun (_ : unit) _ => inl []) tt (widgets default_interaction)
  = [PredictProba (input_df (widgets default_interaction));
     StError "Erreur lors de la prédiction : index 0 is out of bounds for axis 0 with size 0"].
Proof. apply (empty_matrix_index_error _ tt); reflexivity. Defined.

(** Only FileNotFoundError is caught in [load_model]: an artifact that exists
    but cannot be deserialised makes every run stop at line 63 with that
    exception, nothing is cached, and every run reads the file again. *)
Theorem unreadable_artifact_not_cached {M : Type}
    (pp : M -> Row -> list (list Q) + Exn) e is s :
  In s (runs pp (Unreadable e) None is) ->
  s = mkStep None [ReadArtifact artifact_path] (Some e).
Proof.
  induction is as [| i is IH]; simpl; [contradiction |].
  rewrite run_unfold; simpl; intros [<- | H]; [reflexivity | exact (IH H)].
Qed.

Lemma unreadable_artifact_not_cached_witness :
  let s := nth 1 (runs (fixture (1 # 2)) (Unreadable unseen_category) None
                    [default_interaction; default_interaction])
                 (mkStep None [] None) in
  In s (runs (fixture (1 # 2)) (Unreadable unseen_category) None
          [default_interaction; default_interaction])
  /\ s = mkStep None [ReadArtifact artifact_path] (Some unseen_category).
Proof.
  split; [right; left; reflexivity |].
  apply (unreadable_artifact_not_cached (fixture (1 # 2)) unseen_category
           [default_interaction; default_interaction]).
  right; left; reflexivity.
Defined.

Lemma predict_block_no_read {M : Type} (pp : M -> Row -> list (list Q) + Exn) m raw :
  filter is_artifact_read (predict_block pp m raw) = [].
Proof.
  unfold predict_block, render; simpl.
  destruct (score pp m (input_df raw)); [| reflexivity].
  simpl; destruct (show_recommendations _ _); reflexivity.
Qed.

(** With a readable artifact, a session of [n] runs reads the file once in
    total (none for an empty session): the loaded pipeline is cached. *)
Theorem present_artifact_read_once {M : Type}
    (pp : M -> Row -> list (list Q) + Exn) (m : M) is :
  length (filter is_artifact_read
            (concat (map (fun s => trace s) (runs pp (Present m) None is))))
  = match is with [] => 0%nat | _ => 1%nat end.
Proof.
  assert (Hfilled : forall is',
    filter is_artifact_read
      (concat (map (fun s => trace s) (runs pp (Present m) (Some (Some m, [])) is')))
    = []).
  { induction is' as [| i is' IH]; [reflexivity |].
    cbn [runs map concat]; rewrite filter_app, run_unfold; simpl.
    rewrite IH, app_nil_r.
    destruct (pressed i); [apply predict_block_no_read | reflexivity]. }
  destruct is as [| i is]; [reflexivity |].
  cbn [runs map concat]; rewrite filter_app, length_app, run_unfold; simpl.
  rewrite Hfilled; simpl.
  destruct (pressed i); [rewrite predict_block_no_read |]; reflexivity.
Qed.

(** A run on which the button is not pressed on the prediction page (other
    page, or no click) never calls [predict_proba]. *)
Theorem no_scoring_unless_pressed {M : Type}
    (pp : M -> Row -> list (list Q) + Exn) (art : ArtifactFile M) is i :
  pressed i = false ->
  forallb (fun ev => negb (is_predict_call ev))
    (trace (run pp art (final_cache pp art None is) i)) = true.
Proof.
  intros Hp.
  destruct (run_trace_reachable pp art _ i (session_reachable pp art is))
    as [[_ [_ ->]] | [[e [_ [_ ->]]] | [m [_ [_ [_ ->]]]]]].
  - destruct (final_cache pp art None is); reflexivity.
  - reflexivity.
  - rewrite Hp; destruct (final_cache pp art None is); reflexivity.
Qed.

Lemma no_scoring_unless_pressed_witness :
  let i := mkInteraction Documentation 0 0 0 0 0 0 5000 0 100 0 0 true in
  pressed i = false
  /\ forallb (fun ev => negb (is_predict_call ev))
       (trace (run (fixture (1 # 2)) (Present tt)
                 (final_cache (fixture (1 # 2)) (Present tt) None []) i)) = true.
Proof.
  split; [reflexivity |].
  apply no_scoring_unless_pressed; reflexivity.
Defined.



(** ** The documentation page (lines 238-325) *)

(** [pd.DataFrame(dict_of_lists)]: one row per index, the columns in the
    dict's order; lists of different lengths raise ValueError. *)
Definition pd_dataframe_columns (cols : list (string * list string))
  : list (list string) + Exn :=
  match cols with
  | [] => inl []
  | (_, c0) :: _ =>
      if forallb (fun kc => Nat.eqb (length (snd kc)) (length c0)) cols
      then inl (map (fun n => map (fun kc => nth n (snd kc) "") cols)
                  (seq 0 (length c0)))
      else inr (mkExn "ValueError" "All arrays must be of the same length")
  end.

(** Lines 246-273. *)
Definition variables_data : list (string * list string) :=
  [ ("Variable",
     [ "Gender"; "Married"; "Dependents"; "Education"; "Self_Employed";
       "ApplicantIncome"; "CoapplicantIncome"; "LoanAmount";
       "Loan_Amount_Term"; "Credit_History"; "Property_Area" ]);
    ("Type",
     [ "Catégorielle"; "Catégorielle"; "Catégorielle"; "Catégorielle";
       "Catégorielle"; "Numérique"; "Numérique"; "Numérique"; "Numérique";
       "Binaire"; "Catégorielle" ]);
    ("Description",
     [ "Genre du demandeur"; "Statut marital"; "Nombre de personnes à charge";
       "Niveau d'éducation"; "Statut d'indépendant";
       "Revenu mensuel du demandeur"; "Revenu mensuel du co-demandeur";
       "Montant du prêt demandé (en milliers)"; "Durée du prêt en jours";
       "Historique de crédit (1=bon, 0=faible)";
       "Zone géographique de la propriété" ]);
    ("Impact",
     [ "Faible"; "Moyen"; "Moyen"; "Moyen"; "Moyen"; "Élevé"; "Élevé";
       "Élevé"; "Moyen"; "Très élevé"; "Moyen" ]) ].

(** The documented type of a cell kind of the submitted row. *)
Definition documented_kind (v : Value) : string :=
  match v with
  | VStr _ => "Catégorielle"
  | VInt _ => "Numérique"
  | VFloat _ => "Binaire"
  end.

(** What [Image.open("feature_importance.png")] finds. *)
Inductive ImageFile : Type :=
| ImageMissing              (** raises FileNotFoundError *)
| ImageUnreadable (e : Exn) (** raises any other exception *)
| ImagePresent.

Inductive DocEvent : Type :=
| DocImage (caption : string)
| DocWarning (msg : string)
| DocBar (x : list Q) (y : list string) (title : string).

(** Lines 290-292. *)
Definition features : list string :=
  [ "Credit_History"; "ApplicantIncome"; "LoanAmount"; "CoapplicantIncome";
    "Property_Area"; "Loan_Amount_Term"; "Education"; "Married" ].

Definition importance : list Q :=
  [0.35; 0.18; 0.15; 0.12; 0.08; 0.06; 0.04; 0.02].

(** Lines 283-301: the image, or the warning and the illustrative chart. *)
Definition feature_importance_tab (img : ImageFile) : list DocEvent + Exn :=
  match img with
  | ImagePresent => inl [DocImage "Importance des caractéristiques"]
  | ImageMissing =>
      inl [ DocWarning
              "📊 Le graphique d'importance des caractéristiques n'est pas disponible.";
            DocBar importance features "Importance des caractéristiques (exemple)" ]
  | ImageUnreadable e => inr e
  end.

Fixpoint strictly_decreasing (l : list Q) : bool :=
  match l with
  | x :: (y :: _) as t => Qltb y x && strictly_decreasing t
  | _ => true
  end.

(** The variables table of the documentation tab builds (its four columns
    have the same length), has one row per field, and for every submitted
    record its Variable column lists the record's keys in order and its Type
    column the kind of each value (string: categorical, int: numeric,
    float: binary). *)
Theorem variables_table_matches_record :
  exists rows,
    pd_dataframe_columns variables_data = inl rows
    /\ length rows = 11%nat
    /\ forall raw,
         map (fun r => nth 0 r "") rows = map fst (input_df raw)
         /\ map (fun r => nth 1 r "") rows
            = map (fun kv => documented_kind (snd kv)) (input_df raw).
Proof.
  eexists; split; [reflexivity |]; split; [reflexivity |].
  intros raw; split; reflexivity.
Qed.

(** A missing importance image is not an error: the tab shows a warning and
    an illustrative bar chart whose bars are distinct fields of the
    submitted record, as many as the importances, which decrease strictly
    and sum to 1.  A present image is shown alone, and only another failure
    of Image.open escapes the tab. *)
Theorem importance_fallback_chart :
  feature_importance_tab ImagePresent
  = inl [DocImage "Importance des caractéristiques"]
  /\ (forall e, feature_importance_tab (ImageUnreadable e) = inr e)
  /\ exists msg xs ys title,
       feature_importance_tab ImageMissing = inl [DocWarning msg; DocBar xs ys title]
       /\ length xs = length ys
       /\ NoDup ys
       /\ (forall raw, incl ys (map fst (input_df raw)))
       /\ strictly_decreasing xs = true
       /\ fold_right Qplus 0 xs == 1.
Proof.
  split; [reflexivity |]; split; [reflexivity |].
  do 4 eexists; split; [reflexivity |].
  split; [reflexivity |].
  split.
  { unfold features; repeat (constructor; [simpl; intuition discriminate |]);
      constructor. }
  split.
  { intros raw x Hx; simpl in Hx; simpl.
    repeat (destruct Hx as [<- | Hx]; [intuition |]); contradiction. }
  split; reflexivity.
Qed.
